(** * tello_gazebo: the Tello flight plugin (tello_plugin.cpp)

    A shallow embedding of [tello_gazebo::TelloPlugin] and of the
    properties stated about it.  The C++ [double] is idealised as a real
    number ([R]); the physics library's value types (vectors, quaternions,
    poses, the inertia matrix, simulation time) are modelled by records
    that carry the members the plugin touches. *)

From Stdlib Require Import Reals Lra Lia ZArith Bool List String.
Import ListNotations.
Open Scope R_scope.

(** ** Constants (tello_plugin.cpp, lines 18-26) *)

Definition DEBUG : bool := false.

(** [M_PI] of <math.h>. *)
Definition M_PI : R := PI.

Definition MAX_XY_V : R := 8.
Definition MAX_Z_V : R := 4.
Definition MAX_ANG_V : R := M_PI.

Definition MAX_XY_A : R := 8.
Definition MAX_Z_A : R := 4.
Definition MAX_ANG_A : R := M_PI.

(** ** clamp (lines 28-31)

    [return v > max ? max : (v < -max ? -max : v);] *)

Definition clamp (v max : R) : R :=
  if Rgt_dec v max then max
  else if Rlt_dec v (- max) then - max
  else v.

(** ** Value types of the physics library *)

(** [ignition::math::Vector3d]: three doubles; default-constructed to zero. *)
Record Vector3d : Type := mkVector3d { vX : R; vY : R; vZ : R }.

Definition Vector3d_zero : Vector3d := mkVector3d 0 0 0.

(** The setters [v.X(x)], [v.Y(y)], [v.Z(z)] (also used through the
    reference-returning accessors, [v.X() = x]). *)
Definition setX (v : Vector3d) (x : R) : Vector3d := mkVector3d x (vY v) (vZ v).
Definition setY (v : Vector3d) (y : R) : Vector3d := mkVector3d (vX v) y (vZ v).
Definition setZ (v : Vector3d) (z : R) : Vector3d := mkVector3d (vX v) (vY v) z.

(** [Vector3d * double]: every component multiplied by the scalar. *)
Definition scale (v : Vector3d) (s : R) : Vector3d :=
  mkVector3d (vX v * s) (vY v * s) (vZ v * s).

(** [Vector3d * Vector3d]: the component-wise product. *)
Definition vmul (v w : Vector3d) : Vector3d :=
  mkVector3d (vX v * vX w) (vY v * vY w) (vZ v * vZ w).

(** [ignition::math::Matrix3d], row by row. *)
Record Matrix3d : Type := mkMatrix3d {
  m00 : R; m01 : R; m02 : R;
  m10 : R; m11 : R; m12 : R;
  m20 : R; m21 : R; m22 : R
}.

(** [Vector3d * Matrix3d]: the vector is a row vector multiplying the
    matrix from the left. *)
Definition vec_mat (v : Vector3d) (m : Matrix3d) : Vector3d :=
  mkVector3d
    (m00 m * vX v + m10 m * vY v + m20 m * vZ v)
    (m01 m * vX v + m11 m * vY v + m21 m * vZ v)
    (m02 m * vX v + m12 m * vY v + m22 m * vZ v).

(** [ignition::math::Quaterniond]: the four components w, x, y, z. *)
Record Quaterniond : Type := mkQuaterniond { qW : R; qX : R; qY : R; qZ : R }.

(** The setters [q.X(v)] and [q.Y(v)]. *)
Definition qsetX (q : Quaterniond) (v : R) : Quaterniond :=
  mkQuaterniond (qW q) v (qY q) (qZ q).
Definition qsetY (q : Quaterniond) (v : R) : Quaterniond :=
  mkQuaterniond (qW q) (qX q) v (qZ q).

(** [ignition::math::Pose3d]: a position and a rotation. *)
Record Pose3d : Type := mkPose3d { Pos : Vector3d; Rot : Quaterniond }.

Definition set_Rot (p : Pose3d) (q : Quaterniond) : Pose3d := mkPose3d (Pos p) q.

(** [gazebo::common::Time], read in seconds.  [Time()] is the zero time,
    [a - b] the difference and [Double()] the value in seconds. *)
Definition Time : Type := R.
Definition Time_default : Time := 0.
Definition Time_sub (a b : Time) : Time := a - b.
Definition Double (t : Time) : R := t.

(** [gazebo::common::UpdateInfo]: of its members the plugin reads [simTime]. *)
Record UpdateInfo : Type := mkUpdateInfo { simTime : Time }.

(** [gazebo::physics::Inertial]: of its members the plugin reads the mass
    and the moment-of-inertia matrix. *)
Record Inertial : Type := mkInertial { Mass : R; MOI : Matrix3d }.

(** The link [base_link_] as the plugin sees it: what it reads each tick
    (velocities in the body frame, inertial data, world pose) and what it
    hands back (the pose it sets, the forces and torques it adds, each
    call recorded in order). *)
Record Link : Type := mkLink {
  RelativeLinearVel : Vector3d;
  RelativeAngularVel : Vector3d;
  GetInertial : Inertial;
  WorldPose : Pose3d;
  link_forces : list (Vector3d * Vector3d);
  relative_torques : list Vector3d
}.

Definition SetWorldPose (l : Link) (p : Pose3d) : Link :=
  mkLink (RelativeLinearVel l) (RelativeAngularVel l) (GetInertial l) p
         (link_forces l) (relative_torques l).

Definition AddLinkForce (l : Link) (force offset : Vector3d) : Link :=
  mkLink (RelativeLinearVel l) (RelativeAngularVel l) (GetInertial l)
         (WorldPose l) (link_forces l ++ [(force, offset)]) (relative_torques l).

Definition AddRelativeTorque (l : Link) (torque : Vector3d) : Link :=
  mkLink (RelativeLinearVel l) (RelativeAngularVel l) (GetInertial l)
         (WorldPose l) (link_forces l) (relative_torques l ++ [torque]).

(** ** The interface of pid::Controller used by the plugin

    The plugin constructs its controllers with [{flag, g1, g2, g3}] and
    calls [set_target(v)] and [calc(state, dt, bias)] on them.  Both
    methods mutate the controller, so each returns the new controller. *)
Class PidController (C : Type) : Type := {
  make : bool -> R -> R -> R -> C;
  set_target : C -> R -> C;
  calc : C -> R -> R -> R -> R * C
}.


(** [geometry_msgs::msg::Twist]: a linear and an angular vector. *)
Record Twist : Type := mkTwist { linear : Vector3d; angular : Vector3d }.

(** [tello_msgs::srv::TelloAction]: the request carries a command string,
    the response a result code. *)
Record TelloAction_Request : Type := mkRequest { cmd : string }.
Record TelloAction_Response : Type := mkResponse { rc : Z }.

(** ** The static counter of OnUpdate (lines 145-150)

    [static int count = 0] is local to the function, not to an instance:
    the process has one such variable, and the [OnUpdate] of every
    plugin instance in it finds what the last call, of whichever
    instance, has left. *)
Definition count_initial : Z := 0.

(** [bool debug = false; if (++count > 100) { debug = DEBUG; count = 0; }]:
    the debug flag of the call and the counter it leaves. *)
Definition OnUpdate_count (count : Z) : bool * Z :=
  let count1 := (count + 1)%Z in
  if (count1 >? 100)%Z then (DEBUG, 0%Z) else (false, count1).

(** ** TelloPlugin (lines 33-240) *)

Section Plugin.

Context {C : Type} {pidC : PidController C}.

(** The members of one plugin instance that the callbacks read or write.
    The function-local [static int count] of [OnUpdate] is no member: it
    is one variable of the process, shared by all instances
    ([OnUpdate_count] above). *)
Record TelloPlugin : Type := mkTelloPlugin {
  center_of_mass_ : Vector3d;
  sim_time_ : Time;
  x_controller_ : C;
  y_controller_ : C;
  z_controller_ : C;
  yaw_controller_ : C
}.

(** The member initialisers (lines 40 and 62-68): every controller is
    built with [{false, 2, 0, 0}], [sim_time_] is default-constructed. *)
Definition TelloPlugin_new : TelloPlugin :=
  mkTelloPlugin (mkVector3d 0 0 0) Time_default
    (make false 2 0 0) (make false 2 0 0) (make false 2 0 0) (make false 2 0 0).

(** [Load] (lines 81-140), as far as it touches the members above: the
    centre of mass is read from the SDF element when there is one. *)
Definition Load (p : TelloPlugin) (sdf_center_of_mass : option Vector3d) : TelloPlugin :=
  match sdf_center_of_mass with
  | Some c =>
      mkTelloPlugin c (sim_time_ p) (x_controller_ p) (y_controller_ p)
        (z_controller_ p) (yaw_controller_ p)
  | None => p
  end.

(** The local variables of one run of [OnUpdate], kept for the
    statements below. *)
Record Locals : Type := mkLocals {
  l_dt : R;
  l_lin_ubar_raw : Vector3d;
  l_ang_ubar_raw : Vector3d;
  l_lin_ubar : Vector3d;
  l_ang_ubar : Vector3d;
  l_force : Vector3d;
  l_torque : Vector3d;
  l_pose : Pose3d
}.

(** [OnUpdate] (lines 143-207) on one instance, from line 152 on.  Its
    first lines (145-150) work on the static counter of the process and
    are [OnUpdate_count]; the debug printing they gate is left out,
    [debug] being only ever [DEBUG], which is [false]. *)
Definition OnUpdate_run (p : TelloPlugin) (info : UpdateInfo) (link : Link)
  : Locals * TelloPlugin * Link :=
  (* dt *)
  let dt := Double (Time_sub (simTime info) (sim_time_ p)) in
  let sim_time' := simTime info in
  (* Get current velocity *)
  let linear_velocity := RelativeLinearVel link in
  let angular_velocity := RelativeAngularVel link in
  (* Calc desired acceleration (ubar) *)
  let rx := calc (x_controller_ p) (vX linear_velocity) dt 0 in
  let ry := calc (y_controller_ p) (vY linear_velocity) dt 0 in
  let rz := calc (z_controller_ p) (vZ linear_velocity) dt 0 in
  let ryaw := calc (yaw_controller_ p) (vZ angular_velocity) dt 0 in
  let lin_ubar0 := setZ (setY (setX Vector3d_zero (fst rx)) (fst ry)) (fst rz) in
  let ang_ubar0 := setZ Vector3d_zero (fst ryaw) in
  (* Clamp acceleration *)
  let lin_ubar1 := setX lin_ubar0 (clamp (vX lin_ubar0) MAX_XY_A) in
  let lin_ubar2 := setY lin_ubar1 (clamp (vY lin_ubar1) MAX_XY_A) in
  let lin_ubar := setZ lin_ubar2 (clamp (vZ lin_ubar2) MAX_Z_A) in
  let ang_ubar := setZ ang_ubar0 (clamp (vZ ang_ubar0) MAX_ANG_A) in
  (* Calc force and torque *)
  let force := scale lin_ubar (Mass (GetInertial link)) in
  let torque := vec_mat ang_ubar (MOI (GetInertial link)) in
  (* Set roll and pitch to 0 *)
  let pose0 := WorldPose link in
  let pose1 := set_Rot pose0 (qsetX (Rot pose0) 0) in
  let pose := set_Rot pose1 (qsetY (Rot pose1) 0) in
  let link1 := SetWorldPose link pose in
  (* Apply force and torque *)
  let link2 := AddLinkForce link1 force (center_of_mass_ p) in
  let link3 := AddRelativeTorque link2 torque in
  (mkLocals dt lin_ubar0 ang_ubar0 lin_ubar ang_ubar force torque pose,
   mkTelloPlugin (center_of_mass_ p) sim_time'
     (snd rx) (snd ry) (snd rz) (snd ryaw),
   link3).

Definition OnUpdate_locals (p : TelloPlugin) (info : UpdateInfo) (link : Link) : Locals :=
  fst (fst (OnUpdate_run p info link)).

Definition OnUpdate (p : TelloPlugin) (info : UpdateInfo) (link : Link)
  : TelloPlugin * Link :=
  (snd (fst (OnUpdate_run p info link)), snd (OnUpdate_run p info link)).

(** [command_callback] (lines 209-215): the body is empty. *)
Definition command_callback (p : TelloPlugin) (request : TelloAction_Request)
  (response : TelloAction_Response) : TelloPlugin * TelloAction_Response :=
  (p, response).

(** [cmd_vel_callback] (lines 217-227). *)
Definition cmd_vel_callback (p : TelloPlugin) (msg : Twist) : TelloPlugin :=
  let xc := set_target (x_controller_ p) (vX (linear msg) * MAX_XY_V) in
  let yc := set_target (y_controller_ p) (vY (linear msg) * MAX_XY_V) in
  let zc := set_target (z_controller_ p) (vZ (linear msg) * MAX_Z_V) in
  let yawc := set_target (yaw_controller_ p) (vZ (angular msg) * MAX_ANG_V) in
  mkTelloPlugin (center_of_mass_ p) (sim_time_ p) xc yc zc yawc.

End Plugin.

Arguments TelloPlugin C : clear implicits.

(** ** pid::Controller (pid.hpp)

    The header pid.hpp is missing from the sources; the definitions of
    this module follow the specification's description of the Channel
    Controller. *)

Module pid.

(** Modelled from the spec: the state of pid::Controller (pid.hpp is
    missing).  "proportional gain kp, integral gain ki, derivative gain
    kd; a flag indicating whether the controlled quantity is angular;
    current setpoint; accumulated integral error; previous error". *)
Record Controller : Type := mkController {
  angular_flag : bool;
  kp : R;
  ki : R;
  kd : R;
  setpoint : R;
  accumulator : R;
  prev_error : R
}.

(** Modelled from the spec: the constructor of pid::Controller (pid.hpp is
    missing), called as [{flag, kp, ki, kd}]; "gains are fixed at
    construction".  The mutable state starts at zero. *)
Definition new (flag : bool) (Kp Ki Kd : R) : Controller :=
  mkController flag Kp Ki Kd 0 0 0.

(** Modelled from the spec: pid::Controller::set_target (pid.hpp is
    missing).  "setTarget(value) stores a new setpoint, overwriting any
    previous value [...] no side effects beyond state mutation"; "command
    updates only ever overwrite the setpoint field". *)
Definition set_target (c : Controller) (value : R) : Controller :=
  mkController (angular_flag c) (kp c) (ki c) (kd c) value
               (accumulator c) (prev_error c).

(** Modelled from the spec: the wrapping of an angular error (pid.hpp is
    missing).  "error is wrapped into (-pi, pi] before use (shortest-angle
    difference)": the one representative of [e] modulo 2*pi in that
    interval, [e - 2*pi*k] with k the least integer not below (e - pi)/(2*pi). *)
Definition wrap_angle (e : R) : R :=
  e - 2 * PI * IZR (1 - up ((PI - e) / (2 * PI))).

(** Modelled from the spec: the instantaneous error of [update] (pid.hpp
    is missing).  "error = setpoint - measuredValue.  If the channel is
    flagged angular, error is wrapped into (-pi, pi] before use". *)
Definition error_of (c : Controller) (measuredValue : R) : R :=
  let e := setpoint c - measuredValue in
  if angular_flag c then wrap_angle e else e.

(** Modelled from the spec: the derivative term (pid.hpp is missing).
    "computed from the rate of change of error [...] across the step;
    when dt == 0 the derivative term must be treated as zero". *)
Definition derivative_of (c : Controller) (error dt : R) : R :=
  if Req_dec_T dt 0 then 0 else (error - prev_error c) / dt.

(** Modelled from the spec: pid::Controller's update (pid.hpp is missing).
    "Integral term: accumulator += error * dt";
    "Output: kp*error + ki*accumulator + kd*derivative". *)
Definition update (c : Controller) (measuredValue dt : R) : R * Controller :=
  let error := error_of c measuredValue in
  let acc := accumulator c + error * dt in
  let derivative := derivative_of c error dt in
  (kp c * error + ki c * acc + kd c * derivative,
   mkController (angular_flag c) (kp c) (ki c) (kd c) (setpoint c) acc error).

(** Modelled from the spec: pid::Controller::calc as the plugin calls it
    (pid.hpp is missing).  The spec's [update] has no third parameter;
    the plugin passes 0 for it at each of its four calls.  It is taken as
    an offset on the output, so that [calc c v dt 0] is [update c v dt]. *)
Definition calc (c : Controller) (state dt bias : R) : R * Controller :=
  let r := update c state dt in
  (fst r + bias, snd r).

End pid.

#[export] Instance pid_Controller : PidController pid.Controller := {
  make := pid.new;
  set_target := pid.set_target;
  calc := pid.calc
}.

(** The plugin over the controller of the specification. *)
Definition Tello : Type := TelloPlugin pid.Controller.

(** ** Orientation as roll, pitch and yaw

    [ignition::math::Quaterniond(roll, pitch, yaw)]: the quaternion of the
    rotation with the given Euler angles (yaw about z, then pitch about
    y, then roll about x). *)
Definition from_euler (roll pitch yaw : R) : Quaterniond :=
  let phi := roll / 2 in
  let the := pitch / 2 in
  let psi := yaw / 2 in
  mkQuaterniond
    (cos phi * cos the * cos psi + sin phi * sin the * sin psi)
    (sin phi * cos the * cos psi - cos phi * sin the * sin psi)
    (cos phi * sin the * cos psi + sin phi * cos the * sin psi)
    (cos phi * cos the * sin psi - sin phi * sin the * cos psi).

(** A quaternion multiplied by a scalar. *)
Definition qscale (k : R) (q : Quaterniond) : Quaterniond :=
  mkQuaterniond (k * qW q) (k * qX q) (k * qY q) (k * qZ q).

(** Two quaternions stand for the same rotation when one is a non-zero
    multiple of the other (the physics library normalises a quaternion
    before it reads angles off it). *)
Definition same_rotation (q1 q2 : Quaterniond) : Prop :=
  exists k : R, k <> 0 /\ q1 = qscale k q2.

(** The inertia matrix of a body whose products of inertia are zero. *)
Definition diagonal_MOI (ixx iyy izz : R) : Matrix3d :=
  mkMatrix3d ixx 0 0 0 iyy 0 0 0 izz.

(** The principal moments (Ixx, Iyy, Izz) of an inertia matrix. *)
Definition principal_moments (m : Matrix3d) : Vector3d :=
  mkVector3d (m00 m) (m11 m) (m22 m).

(** ** The plugin's life, and the inputs used in the examples *)

(** The gains the plugin gives each of its channels: the flag is [false]
    and the gains are 2, 0, 0. *)
Definition plugin_channel (c : pid.Controller) : Prop :=
  pid.angular_flag c = false /\ pid.kp c = 2 /\ pid.ki c = 0 /\ pid.kd c = 0.

(** The second controller is the first but for its setpoint: flag, gains,
    accumulator and previous error are the same. *)
Definition keeps_all_but_setpoint (c c' : pid.Controller) : Prop :=
  pid.angular_flag c' = pid.angular_flag c /\
  pid.kp c' = pid.kp c /\ pid.ki c' = pid.ki c /\ pid.kd c' = pid.kd c /\
  pid.accumulator c' = pid.accumulator c /\
  pid.prev_error c' = pid.prev_error c.

(** The states the plugin can be in: it is constructed, loaded, and then
    driven by simulation ticks, velocity commands and action requests in
    any order. *)
Inductive reachable : Tello -> Prop :=
| reach_new : reachable TelloPlugin_new
| reach_Load p c : reachable p -> reachable (Load p c)
| reach_OnUpdate p info link :
    reachable p -> reachable (fst (OnUpdate p info link))
| reach_command p request response :
    reachable p -> reachable (fst (command_callback p request response))
| reach_cmd_vel p msg : reachable p -> reachable (cmd_vel_callback p msg).

(** The rotation by nothing. *)
Definition identity_rotation : Quaterniond := mkQuaterniond 1 0 0 0.

(** An inertia matrix without products of inertia. *)
Definition level_MOI : Matrix3d := diagonal_MOI 3 4 3.

(** An inertia matrix with a product of inertia: Ixx = Izz = 3, Iyy = 4,
    Ixz = 1. *)
Definition skew_MOI : Matrix3d := mkMatrix3d 3 0 1 0 4 0 1 0 3.

(** A body of the given mass, inertia and orientation that turns about
    its vertical axis at the given rate and does not translate. *)
Definition turning_link (mass : R) (moi : Matrix3d) (rot : Quaterniond)
  (yaw_rate : R) : Link :=
  mkLink Vector3d_zero (mkVector3d 0 0 yaw_rate) (mkInertial mass moi)
         (mkPose3d Vector3d_zero rot) [] [].

(** A body at rest. *)
Definition resting_link (mass : R) (moi : Matrix3d) (rot : Quaterniond) : Link :=
  turning_link mass moi rot 0.

(** The plugin after construction and [Load] without a centre of mass
    in the SDF. *)
Definition loaded_plugin : Tello := Load TelloPlugin_new None.

(** The command "full yaw rate, no translation". *)
Definition yaw_command : Twist := mkTwist Vector3d_zero (mkVector3d 0 0 1).

(** The command "full speed ahead". *)
Definition forward_command : Twist := mkTwist (mkVector3d 1 0 0) Vector3d_zero.

(** A controller with an integral gain that has accumulated error. *)
Definition wound_up : pid.Controller := pid.mkController false 2 1 0 1 1 1.

(** ** Load in full, the timer callback and the plugin's events *)

(** The children of the plugin's SDF element that [Load] looks at; a
    child that is absent is [None] ([HasElement] is false). *)
Record SDF : Type := mkSDF {
  el_ns : option string;
  el_link_name : option string;
  el_center_of_mass : option Vector3d
}.

(** [gazebo::physics::Model], as far as [Load] uses it: its links by
    name.  [GetLink] returns the link of that name, or nothing (the null
    pointer). *)
Definition Model : Type := list (string * Link).

Fixpoint GetLink (model : Model) (name : string) : option Link :=
  match model with
  | [] => None
  | (n, l) :: rest => if String.eqb n name then Some l else GetLink rest name
  end.

(** [std::string::empty]. *)
Definition empty (s : string) : bool :=
  match s with
  | EmptyString => true
  | String _ _ => false
  end.

(** What [Load] wires up: the names of the two publishers, of the
    service and of the subscription, and the period of the wall timer in
    milliseconds. *)
Record Endpoints : Type := mkEndpoints {
  flight_data_topic : string;
  tello_response_topic : string;
  tello_action_service : string;
  cmd_vel_topic : string;
  timer_period_ms : Z
}.

(** [tello_msgs::msg::FlightData], as far as the plugin fills it: the
    time stamp of the header, the SDK version and the battery level. *)
Inductive SDK : Type := SDK_UNKNOWN | SDK_1_3 | SDK_2_0.

Record FlightData : Type := mkFlightData {
  stamp : Time;
  sdk : SDK;
  bat : Z
}.

(** [tello_msgs::msg::TelloResponse]: a result code and a text. *)
Record TelloResponse : Type := mkTelloResponse { resp_rc : Z; resp_str : string }.

Section Events.

Context {C : Type} {pidC : PidController C}.

(** [Load] (lines 81-140) with everything it decides: the names read
    from the SDF with their defaults, the link looked up in the model
    (the assertion "Missing link" fails when there is none: [None]), the
    namespace with its trailing slash and the four endpoint names. *)
Definition Load_all (p : TelloPlugin C) (model : Model) (sdf : SDF)
  : option (TelloPlugin C * Link * Endpoints) :=
  let ns := match el_ns sdf with Some s => s | None => EmptyString end in
  let link_name :=
    match el_link_name sdf with Some s => s | None => "base_link"%string end in
  let p' := Load p (el_center_of_mass sdf) in
  match GetLink model link_name with
  | None => None
  | Some base_link =>
      let ns := if negb (empty ns) then (ns ++ "/")%string else ns in
      Some (p', base_link,
            mkEndpoints (ns ++ "flight_data")%string
                        (ns ++ "tello_response")%string
                        (ns ++ "tello_action")%string
                        (ns ++ "cmd_vel")%string
                        100)
  end.

(** [spin_10Hz] (lines 229-239): one flight data message is published,
    stamped with the node's clock. *)
Definition spin_10Hz (p : TelloPlugin C) (now : Time)
  : TelloPlugin C * FlightData :=
  (p, mkFlightData now SDK_1_3 80).

(** What reaches the plugin after [Load]: the world update event, with
    the state of the link at that moment; a velocity command; an action
    request; a tick of the 10 Hz timer, with the node's clock. *)
Inductive Event : Type :=
| WorldUpdateBegin (info : UpdateInfo) (link : Link)
| CmdVel (msg : Twist)
| Action (request : TelloAction_Request)
| Timer10Hz (now : Time).

(** The plugin together with everything it has sent out: the messages
    on its two publishers, its replies to the action service, and per
    tick the locals and the link as the tick left it. *)
Record World : Type := mkWorld {
  plugin : TelloPlugin C;
  flight_data_out : list FlightData;
  tello_response_out : list TelloResponse;
  action_replies : list TelloAction_Response;
  ticks_out : list (Locals * Link)
}.

Definition start (p : TelloPlugin C) : World := mkWorld p [] [] [] [].

(** One event handled by the callback that [Load] bound to it.  The
    service hands the callback a default-constructed response. *)
Definition handle (w : World) (e : Event) : World :=
  match e with
  | WorldUpdateBegin info link =>
      mkWorld (fst (OnUpdate (plugin w) info link))
              (flight_data_out w) (tello_response_out w) (action_replies w)
              (ticks_out w ++ [(OnUpdate_locals (plugin w) info link,
                                snd (OnUpdate (plugin w) info link))])
  | CmdVel msg =>
      mkWorld (cmd_vel_callback (plugin w) msg)
              (flight_data_out w) (tello_response_out w) (action_replies w)
              (ticks_out w)
  | Action request =>
      let r := command_callback (plugin w) request (mkResponse 0) in
      mkWorld (fst r) (flight_data_out w) (tello_response_out w)
              (action_replies w ++ [snd r]) (ticks_out w)
  | Timer10Hz now =>
      let r := spin_10Hz (plugin w) now in
      mkWorld (fst r) (flight_data_out w ++ [snd r]) (tello_response_out w)
              (action_replies w) (ticks_out w)
  end.

Definition run (w : World) (events : list Event) : World :=
  fold_left handle events w.

(** The clock readings of the timer events of a list, in order. *)
Fixpoint timer_times (events : list Event) : list Time :=
  match events with
  | [] => []
  | Timer10Hz now :: rest => now :: timer_times rest
  | _ :: rest => timer_times rest
  end.

(** What one channel goes through in a run of events: a command sets
    its target to the command's component times the channel's maximum, a
    world update runs its [calc] on the velocity component with the time
    since the last update; the other events pass it by.  The state is
    the controller and the time of the last update. *)
Definition channel_handle (cmd_of : Twist -> R) (vel_of : Link -> R)
  (s : C * Time) (e : Event) : C * Time :=
  match e with
  | WorldUpdateBegin info link =>
      (snd (calc (fst s) (vel_of link) (simTime info - snd s) 0), simTime info)
  | CmdVel msg => (set_target (fst s) (cmd_of msg), snd s)
  | _ => s
  end.

Definition channel_run (cmd_of : Twist -> R) (vel_of : Link -> R)
  (s : C * Time) (events : list Event) : C * Time :=
  fold_left (channel_handle cmd_of vel_of) events s.

End Events.

Arguments World C : clear implicits.

(** ** A process with several plugin instances *)

(** A list with its element at a position replaced; a position past the
    end leaves the list as it is. *)
Fixpoint set_nth {A : Type} (i : nat) (x : A) (l : list A) : list A :=
  match l, i with
  | [], _ => []
  | _ :: rest, O => x :: rest
  | y :: rest, S j => y :: set_nth j x rest
  end.

Section Process.

Context {C : Type} {pidC : PidController C}.

(** The simulator process: the static counter of [OnUpdate], of which
    there is one, and the plugin instances loaded into it (one for each
    drone model). *)
Record Process : Type := mkProcess {
  static_count : Z;
  instances : list (TelloPlugin C)
}.

(** [OnUpdate] (lines 143-207) called on instance [i]: the counter of
    the process is moved on, the instance runs its tick.  Without such
    an instance there is no call. *)
Definition Process_OnUpdate (pr : Process) (i : nat) (info : UpdateInfo)
  (link : Link) : Process :=
  match nth_error (instances pr) i with
  | None => pr
  | Some p =>
      mkProcess (snd (OnUpdate_count (static_count pr)))
                (set_nth i (fst (OnUpdate p info link)) (instances pr))
  end.

(** A sequence of such calls, each on the instance it names. *)
Definition Process_run (pr : Process) (calls : list (nat * UpdateInfo * Link))
  : Process :=
  fold_left (fun pr c => Process_OnUpdate pr (fst (fst c)) (snd (fst c)) (snd c))
            calls pr.

End Process.

Arguments Process C : clear implicits.

(** The sum of a list of reals. *)
Definition Rsum (l : list R) : R := fold_right Rplus 0 l.

(** The squared norm of a quaternion. *)
Definition qnorm2 (q : Quaterniond) : R :=
  qW q * qW q + qX q * qX q + qY q * qY q + qZ q * qZ q.

(** Case analysis on the comparisons of [clamp]. *)
Ltac clamp_cases :=
  unfold clamp;
  repeat match goal with
         | |- context [Rgt_dec ?a ?b] => destruct (Rgt_dec a b)
         | |- context [Rlt_dec ?a ?b] => destruct (Rlt_dec a b)
         end;
  try lra.

(** * Properties *)

(** ** clamp *)

Lemma PI_gt_3 : 3 < PI.
Proof. pose proof PI2_3_2; lra. Qed.

Lemma clamp_above (v m : R) : v > m -> clamp v m = m.
Proof. intros; clamp_cases. Qed.

Lemma clamp_below (v m : R) : 0 <= m -> v < - m -> clamp v m = - m.
Proof. intros; clamp_cases. Qed.

Lemma clamp_within (v m : R) : - m <= v <= m -> clamp v m = v.
Proof. intros; clamp_cases. Qed.

Lemma clamp_bounds (v m : R) : 0 <= m -> - m <= clamp v m <= m.
Proof. intros; clamp_cases. Qed.

(** What [clamp] does for a non-negative bound, in one statement. *)
Lemma clamp_saturates (v m : R) :
  0 <= m ->
  - m <= clamp v m <= m /\
  (v > m -> clamp v m = m) /\
  (v < - m -> clamp v m = - m) /\
  (- m <= v <= m -> clamp v m = v).
Proof.
  intros Hm; repeat split;
    try apply clamp_bounds; try apply clamp_above;
    try (now apply clamp_below); try apply clamp_within; assumption.
Qed.

Section PluginFacts.

Context {C : Type} {pidC : PidController C}.

(** The demands after the clamping step are the clamped raw demands; the
    roll and pitch components of the angular demand are never written. *)
Lemma OnUpdate_clamped (p : TelloPlugin C) (info : UpdateInfo) (link : Link) :
  let L := OnUpdate_locals p info link in
  l_lin_ubar L =
    mkVector3d (clamp (vX (l_lin_ubar_raw L)) MAX_XY_A)
               (clamp (vY (l_lin_ubar_raw L)) MAX_XY_A)
               (clamp (vZ (l_lin_ubar_raw L)) MAX_Z_A) /\
  l_ang_ubar L = mkVector3d 0 0 (clamp (vZ (l_ang_ubar_raw L)) MAX_ANG_A).
Proof. split; reflexivity. Qed.

(** The raw demands are what the four controllers return. *)
Lemma OnUpdate_raw (p : TelloPlugin C) (info : UpdateInfo) (link : Link) :
  let L := OnUpdate_locals p info link in
  l_lin_ubar_raw L =
    mkVector3d
      (fst (calc (x_controller_ p) (vX (RelativeLinearVel link)) (l_dt L) 0))
      (fst (calc (y_controller_ p) (vY (RelativeLinearVel link)) (l_dt L) 0))
      (fst (calc (z_controller_ p) (vZ (RelativeLinearVel link)) (l_dt L) 0)) /\
  l_ang_ubar_raw L =
    mkVector3d 0 0
      (fst (calc (yaw_controller_ p) (vZ (RelativeAngularVel link)) (l_dt L) 0)).
Proof. split; reflexivity. Qed.

(** C3: on every tick each of the four demands is clamped on its own:
    x and y to [-8, 8], z to [-4, 4], yaw to [-pi, pi]; for each of the
    three bounds a value above the bound becomes the bound, a value below
    its negation becomes the negated bound, and a value within is
    returned unchanged. *)
Theorem OnUpdate_clamps_each_demand
  (p : TelloPlugin C) (info : UpdateInfo) (link : Link) :
  let L := OnUpdate_locals p info link in
  (vX (l_lin_ubar L) = clamp (vX (l_lin_ubar_raw L)) 8 /\
   vY (l_lin_ubar L) = clamp (vY (l_lin_ubar_raw L)) 8 /\
   vZ (l_lin_ubar L) = clamp (vZ (l_lin_ubar_raw L)) 4 /\
   vZ (l_ang_ubar L) = clamp (vZ (l_ang_ubar_raw L)) PI) /\
  (- 8 <= vX (l_lin_ubar L) <= 8 /\
   - 8 <= vY (l_lin_ubar L) <= 8 /\
   - 4 <= vZ (l_lin_ubar L) <= 4 /\
   - PI <= vZ (l_ang_ubar L) <= PI) /\
  (forall v : R,
     - 8 <= clamp v MAX_XY_A <= 8 /\
     - 4 <= clamp v MAX_Z_A <= 4 /\
     - PI <= clamp v MAX_ANG_A <= PI) /\
  (forall v m : R, m = MAX_XY_A \/ m = MAX_Z_A \/ m = MAX_ANG_A ->
     (v > m -> clamp v m = m) /\
     (v < - m -> clamp v m = - m) /\
     (- m <= v <= m -> clamp v m = v)).
Proof.
  pose proof PI_gt_3 as Hpi.
  assert (H8 : 0 <= 8) by lra.
  assert (H4 : 0 <= 4) by lra.
  assert (HP : 0 <= PI) by lra.
  cbv zeta.
  destruct (OnUpdate_clamped p info link) as [Hl Ha].
  rewrite Hl, Ha; cbn [vX vY vZ].
  unfold MAX_XY_A, MAX_Z_A, MAX_ANG_A, M_PI.
  split; [repeat split | split; [ | split]].
  - repeat split; now apply clamp_bounds.
  - intros v; repeat split; now apply clamp_bounds.
  - intros v m Hm.
    assert (0 <= m) by (destruct Hm as [-> | [-> | ->]]; assumption).
    now apply clamp_saturates.
Qed.

End PluginFacts.

(** C8: clamp is idempotent and odd for every value and every positive
    bound. *)
Theorem clamp_idempotent_odd (v m : R) :
  m > 0 ->
  clamp v m = clamp (clamp v m) m /\ clamp v m = - clamp (- v) m.
Proof.
  intros Hm; split.
  - symmetry; apply clamp_within; apply clamp_bounds; lra.
  - clamp_cases.
Qed.

(** At v = 16 and m = 8. *)
Lemma clamp_idempotent_odd_witness :
  8 > 0 /\ clamp 16 8 = clamp (clamp 16 8) 8 /\ clamp 16 8 = - clamp (- 16) 8.
Proof.
  split; [lra | apply (clamp_idempotent_odd 16 8); lra].
Defined.

(** ** Quaternions about the vertical axis *)

Lemma unit_circle_angle (a b : R) :
  a * a + b * b = 1 -> exists t : R, cos t = a /\ sin t = b.
Proof.
  intros H.
  assert (Ha : -1 <= a <= 1) by (split; nra).
  assert (Hs : 1 - Rsqr a = b * b) by (unfold Rsqr; lra).
  destruct (Rle_lt_dec 0 b) as [Hb | Hb].
  - exists (acos a). split; [now apply cos_acos | ].
    rewrite sin_acos by assumption. rewrite Hs. now apply sqrt_square.
  - exists (- acos a). rewrite cos_neg, sin_neg. split; [now apply cos_acos | ].
    rewrite sin_acos by assumption. rewrite Hs.
    replace (b * b) with ((- b) * (- b)) by ring.
    rewrite sqrt_square by lra. ring.
Qed.

Lemma from_euler_yaw_only (yaw : R) :
  from_euler 0 0 yaw = mkQuaterniond (cos (yaw / 2)) 0 0 (sin (yaw / 2)).
Proof.
  unfold from_euler. replace (0 / 2) with 0 by lra.
  rewrite sin_0, cos_0. f_equal; ring.
Qed.

(** A quaternion whose x and y components are zero, and which is not
    zero altogether, is a rotation about the vertical axis: it has a yaw
    and neither roll nor pitch. *)
Lemma yaw_only_quaternion (w z : R) :
  w <> 0 \/ z <> 0 ->
  exists yaw : R, same_rotation (mkQuaterniond w 0 0 z) (from_euler 0 0 yaw).
Proof.
  intros Hnz.
  assert (Hpos : 0 < w * w + z * z) by (destruct Hnz; nra).
  pose proof (sqrt_lt_R0 _ Hpos) as Hk.
  pose proof (sqrt_sqrt (w * w + z * z) (Rlt_le _ _ Hpos)) as Hkk.
  set (k := sqrt (w * w + z * z)) in *.
  destruct (unit_circle_angle (w / k) (z / k)) as (t & Hc & Hs).
  { replace (w / k * (w / k) + z / k * (z / k))
      with ((w * w + z * z) / (k * k)) by (field; lra).
    rewrite Hkk. field; lra. }
  exists (2 * t), k. split; [lra | ].
  rewrite from_euler_yaw_only. replace (2 * t / 2) with t by lra.
  rewrite Hc, Hs. unfold qscale; cbn [qW qX qY qZ].
  f_equal; field; lra.
Qed.

(** ** The tick: time step, force and torque, orientation *)

Section TickFacts.

Context {C : Type} {pidC : PidController C}.

Lemma OnUpdate_dt (p : TelloPlugin C) (info : UpdateInfo) (link : Link) :
  l_dt (OnUpdate_locals p info link) = simTime info - sim_time_ p.
Proof. reflexivity. Qed.

Lemma OnUpdate_sim_time (p : TelloPlugin C) (info : UpdateInfo) (link : Link) :
  sim_time_ (fst (OnUpdate p info link)) = simTime info.
Proof. reflexivity. Qed.

Lemma Load_sim_time (p : TelloPlugin C) (c : option Vector3d) :
  sim_time_ (Load p c) = sim_time_ p.
Proof. destruct c; reflexivity. Qed.

(** C2 (amended): on every tick, the first one included, dt is the
    current simulation time minus the stored time of the last tick, and
    the current time is stored; the stored time of a plugin that has not
    ticked yet is zero, so the first dt is the simulation time itself;
    dt is not negative when the simulation time has not gone back, and
    between two consecutive ticks it is the difference of their times. *)
Theorem OnUpdate_dt_is_time_difference
  (p : TelloPlugin C) (info : UpdateInfo) (link : Link) :
  l_dt (OnUpdate_locals p info link) = simTime info - sim_time_ p /\
  sim_time_ (fst (OnUpdate p info link)) = simTime info /\
  (forall c : option Vector3d,
     l_dt (OnUpdate_locals (Load TelloPlugin_new c) info link) = simTime info) /\
  (sim_time_ p <= simTime info -> 0 <= l_dt (OnUpdate_locals p info link)) /\
  (forall info' link',
     l_dt (OnUpdate_locals (fst (OnUpdate p info link)) info' link')
       = simTime info' - simTime info).
Proof.
  repeat split.
  - intros c. rewrite OnUpdate_dt, Load_sim_time. cbn. unfold Time_default. ring.
  - intros Hle. rewrite OnUpdate_dt. lra.
Qed.

Lemma OnUpdate_force (p : TelloPlugin C) (info : UpdateInfo) (link : Link) :
  l_force (OnUpdate_locals p info link)
    = scale (l_lin_ubar (OnUpdate_locals p info link)) (Mass (GetInertial link)).
Proof. reflexivity. Qed.

Lemma OnUpdate_torque (p : TelloPlugin C) (info : UpdateInfo) (link : Link) :
  l_torque (OnUpdate_locals p info link)
    = vec_mat (l_ang_ubar (OnUpdate_locals p info link)) (MOI (GetInertial link)).
Proof. reflexivity. Qed.

(** C5 (amended): the force is the clamped linear demand times the mass,
    component by component; the torque is the clamped angular demand, a
    row vector, times the inertia matrix, that is the yaw demand times
    the matrix's last row; when the products of inertia in that row are
    zero it is the component-wise product with the principal moments.
    Both are handed to the link, the force at the centre-of-mass offset. *)
Theorem OnUpdate_force_and_torque
  (p : TelloPlugin C) (info : UpdateInfo) (link : Link) :
  let L := OnUpdate_locals p info link in
  let mass := Mass (GetInertial link) in
  let M := MOI (GetInertial link) in
  l_force L = mkVector3d (vX (l_lin_ubar L) * mass)
                         (vY (l_lin_ubar L) * mass)
                         (vZ (l_lin_ubar L) * mass) /\
  l_torque L = vec_mat (l_ang_ubar L) M /\
  l_torque L = mkVector3d (m20 M * vZ (l_ang_ubar L))
                          (m21 M * vZ (l_ang_ubar L))
                          (m22 M * vZ (l_ang_ubar L)) /\
  (m20 M = 0 -> m21 M = 0 ->
   l_torque L = vmul (l_ang_ubar L) (principal_moments M)) /\
  link_forces (snd (OnUpdate p info link))
    = link_forces link ++ [(l_force L, center_of_mass_ p)] /\
  relative_torques (snd (OnUpdate p info link))
    = relative_torques link ++ [l_torque L].
Proof.
  cbv zeta.
  assert (Hrow : l_torque (OnUpdate_locals p info link) =
                 mkVector3d
                   (m20 (MOI (GetInertial link)) * vZ (l_ang_ubar (OnUpdate_locals p info link)))
                   (m21 (MOI (GetInertial link)) * vZ (l_ang_ubar (OnUpdate_locals p info link)))
                   (m22 (MOI (GetInertial link)) * vZ (l_ang_ubar (OnUpdate_locals p info link)))).
  { cbn. unfold vec_mat; cbn. f_equal; ring. }
  repeat split; try assumption.
  intros H20 H21. rewrite Hrow, H20, H21.
  destruct (OnUpdate_clamped p info link) as [_ Ha].
  rewrite Ha. unfold vmul, principal_moments; cbn. f_equal; ring.
Qed.

(** C6 (amended): on every tick the x and y components of the
    orientation quaternion are overwritten with zero, its w and z
    components and the position stay as they were; the result, unless
    it is the zero quaternion, is a rotation with a yaw and no roll or
    pitch; for an orientation that had roll only, or pitch only, it is a
    multiple of the quaternion with the same yaw and no roll or pitch. *)
Theorem OnUpdate_zeroes_quaternion_xy
  (p : TelloPlugin C) (info : UpdateInfo) (link : Link) :
  let q := Rot (WorldPose link) in
  let q' := Rot (WorldPose (snd (OnUpdate p info link))) in
  qX q' = 0 /\ qY q' = 0 /\ qW q' = qW q /\ qZ q' = qZ q /\
  Pos (WorldPose (snd (OnUpdate p info link))) = Pos (WorldPose link) /\
  (qW q <> 0 \/ qZ q <> 0 ->
   exists yaw', same_rotation q' (from_euler 0 0 yaw')) /\
  (forall roll yaw, q = from_euler roll 0 yaw ->
     q' = qscale (cos (roll / 2)) (from_euler 0 0 yaw)) /\
  (forall pitch yaw, q = from_euler 0 pitch yaw ->
     q' = qscale (cos (pitch / 2)) (from_euler 0 0 yaw)).
Proof.
  cbv zeta. cbn.
  split; [reflexivity | ].
  split; [reflexivity | ].
  split; [reflexivity | ].
  split; [reflexivity | ].
  split; [reflexivity | ].
  split; [intros Hnz; now apply yaw_only_quaternion | ].
  split; intros a yaw Hq; rewrite Hq;
    unfold from_euler, qscale, qsetX, qsetY; cbn [qW qX qY qZ];
    replace (0 / 2) with 0 by lra; rewrite sin_0, cos_0; f_equal; ring.
Qed.

(** C10: the action service handler returns the plugin and the response
    it was given, whatever the request; a tick after it is the tick
    without it. *)
Theorem command_callback_is_noop
  (p : TelloPlugin C) (request : TelloAction_Request)
  (response : TelloAction_Response) :
  command_callback p request response = (p, response) /\
  (forall info link,
     OnUpdate (fst (command_callback p request response)) info link
       = OnUpdate p info link) /\
  (forall info link,
     OnUpdate_locals (fst (command_callback p request response)) info link
       = OnUpdate_locals p info link).
Proof. repeat split. Qed.

End TickFacts.

(** ** The channel controller of the specification *)

Lemma wrap_angle_range (e : R) : - PI < pid.wrap_angle e <= PI.
Proof.
  unfold pid.wrap_angle.
  pose proof PI_gt_3 as Hpi.
  set (x := (PI - e) / (2 * PI)).
  assert (He : e = PI - 2 * PI * x) by (unfold x; field; lra).
  destruct (archimed x) as [Hup1 Hup2].
  rewrite minus_IZR.
  split; nra.
Qed.

Lemma wrap_angle_congruent (e : R) :
  exists k : Z, pid.wrap_angle e = e - 2 * PI * IZR k.
Proof. unfold pid.wrap_angle; eexists; reflexivity. Qed.

Lemma wrap_angle_fixes_range (e : R) : - PI < e <= PI -> pid.wrap_angle e = e.
Proof.
  intros He. unfold pid.wrap_angle.
  pose proof PI_gt_3 as Hpi.
  assert (Hx : (PI - e) / (2 * PI) * (2 * PI) = PI - e) by (field; lra).
  rewrite <- (tech_up ((PI - e) / (2 * PI)) 1); [cbn; lra | nra | nra].
Qed.

Lemma wrap_angle_near_full_turn : pid.wrap_angle (0 - (2 * PI - 0.01)) = 0.01.
Proof.
  unfold pid.wrap_angle.
  pose proof PI_gt_3 as Hpi.
  assert (Hx : (PI - (0 - (2 * PI - 0.01))) / (2 * PI) * (2 * PI)
               = 3 * PI - 0.01) by (field; lra).
  rewrite <- (tech_up ((PI - (0 - (2 * PI - 0.01))) / (2 * PI)) 2);
    [cbn; lra | nra | nra].
Qed.

Lemma derivative_of_zero_dt (c : pid.Controller) (e : R) :
  pid.derivative_of c e 0 = 0.
Proof.
  unfold pid.derivative_of. destruct (Req_dec_T 0 0); [reflexivity | lra].
Qed.

Lemma calc_bias_zero (c : pid.Controller) (v dt : R) :
  pid.calc c v dt 0 = pid.update c v dt.
Proof.
  unfold pid.calc. destruct (pid.update c v dt) as [u c']; cbn.
  f_equal; ring.
Qed.

Lemma plugin_channel_new : plugin_channel (pid.new false 2 0 0).
Proof. repeat split. Qed.

Lemma plugin_channel_set_target (c : pid.Controller) (v : R) :
  plugin_channel c -> plugin_channel (pid.set_target c v).
Proof. intros H; exact H. Qed.

Lemma plugin_channel_calc (c : pid.Controller) (v dt bias : R) :
  plugin_channel c -> plugin_channel (snd (pid.calc c v dt bias)).
Proof. intros H; exact H. Qed.

(** A channel of the plugin is purely proportional and does not wrap:
    whatever dt, the demand is twice the plain difference. *)
Lemma plugin_channel_demand (c : pid.Controller) (v dt : R) :
  plugin_channel c ->
  pid.error_of c v = pid.setpoint c - v /\
  fst (pid.calc c v dt 0) = 2 * (pid.setpoint c - v).
Proof.
  intros (Hflag & Hp & Hi & Hd).
  assert (He : pid.error_of c v = pid.setpoint c - v)
    by (unfold pid.error_of; rewrite Hflag; reflexivity).
  split; [exact He | ].
  unfold pid.calc, pid.update; cbn [fst snd].
  rewrite He, Hp, Hi, Hd. ring.
Qed.

(** Every channel of a reachable plugin carries the plugin's gains. *)
Lemma reachable_channels (p : Tello) :
  reachable p ->
  plugin_channel (x_controller_ p) /\ plugin_channel (y_controller_ p) /\
  plugin_channel (z_controller_ p) /\ plugin_channel (yaw_controller_ p).
Proof.
  induction 1 as [ | p c _ IH | p info link _ IH | p rq rs _ IH | p msg _ IH].
  - repeat split.
  - destruct c; exact IH.
  - exact IH.
  - exact IH.
  - exact IH.
Qed.

(** ** The plugin with its four channels *)

(** C1 (amended): the yaw-rate channel is built with the angular flag
    off, like the three linear channels, so the error its update uses is
    the plain difference setpoint - measured and the raw yaw demand is
    twice that difference; a channel whose flag is on has its error
    wrapped into (-pi, pi], a multiple of 2*pi away from the plain
    difference, and such a channel with setpoint 0 and measured value
    2*pi - 0.01 has error 0.01. *)
Theorem yaw_channel_error_is_plain_difference
  (p : Tello) (info : UpdateInfo) (link : Link) :
  reachable p ->
  let yaw := yaw_controller_ p in
  let measured := vZ (RelativeAngularVel link) in
  pid.angular_flag yaw = false /\
  pid.error_of yaw measured = pid.setpoint yaw - measured /\
  vZ (l_ang_ubar_raw (OnUpdate_locals p info link))
    = 2 * (pid.setpoint yaw - measured) /\
  (forall (c : pid.Controller) (m : R),
     pid.angular_flag c = true ->
     - PI < pid.error_of c m <= PI /\
     exists k : Z, pid.error_of c m = pid.setpoint c - m - 2 * PI * IZR k) /\
  (forall c : pid.Controller,
     pid.angular_flag c = true -> pid.setpoint c = 0 ->
     pid.error_of c (2 * PI - 0.01) = 0.01 /\
     Rabs (pid.error_of c (2 * PI - 0.01)) <= 0.01).
Proof.
  intros Hreach; cbv zeta.
  destruct (reachable_channels p Hreach) as (_ & _ & _ & Hyaw).
  destruct (plugin_channel_demand (yaw_controller_ p)
              (vZ (RelativeAngularVel link))
              (l_dt (OnUpdate_locals p info link)) Hyaw) as [He Hu].
  split; [apply Hyaw | ].
  split; [exact He | ].
  split; [exact Hu | ].
  split.
  - intros c m Hflag. unfold pid.error_of; rewrite Hflag.
    split; [apply wrap_angle_range | apply wrap_angle_congruent].
  - intros c Hflag Hset. unfold pid.error_of; rewrite Hflag, Hset.
    rewrite wrap_angle_near_full_turn.
    split; [reflexivity | rewrite Rabs_pos_eq; lra].
Qed.

(** After a full yaw-rate command, for a body turning at 7 rad/s. *)
Lemma yaw_channel_error_is_plain_difference_witness :
  reachable (cmd_vel_callback loaded_plugin yaw_command) /\
  vZ (l_ang_ubar_raw
        (OnUpdate_locals (cmd_vel_callback loaded_plugin yaw_command)
           (mkUpdateInfo 1) (turning_link 1 level_MOI identity_rotation 7)))
    = 2 * (1 * PI - 7).
Proof.
  assert (Hreach : reachable (cmd_vel_callback loaded_plugin yaw_command))
    by (apply reach_cmd_vel, reach_Load, reach_new).
  split; [exact Hreach | ].
  exact (proj1 (proj2 (proj2
    (yaw_channel_error_is_plain_difference
       (cmd_vel_callback loaded_plugin yaw_command) (mkUpdateInfo 1)
       (turning_link 1 level_MOI identity_rotation 7) Hreach)))).
Defined.

(** C1, as stated, fails: the yaw channel of the plugin, with setpoint 0
    and measured value 2*pi - 0.01, uses the error 0.01 - 2*pi, which
    lies outside (-pi, pi] and is larger than 0.01 in magnitude; the raw
    yaw demand of the tick is twice that error. *)
Lemma yaw_channel_error_not_wrapped :
  let e := pid.error_of (yaw_controller_ loaded_plugin) (2 * PI - 0.01) in
  pid.setpoint (yaw_controller_ loaded_plugin) = 0 /\
  e = 0.01 - 2 * PI /\
  ~ (- PI < e <= PI) /\
  ~ (Rabs e <= 0.01) /\
  vZ (l_ang_ubar_raw
        (OnUpdate_locals loaded_plugin (mkUpdateInfo 1)
           (turning_link 1 level_MOI identity_rotation (2 * PI - 0.01))))
    = 2 * (0.01 - 2 * PI).
Proof.
  pose proof PI_gt_3 as Hpi.
  assert (He : pid.error_of (yaw_controller_ loaded_plugin) (2 * PI - 0.01)
               = 0.01 - 2 * PI)
    by (unfold pid.error_of; cbn; lra).
  cbv zeta. rewrite He.
  split; [reflexivity | ].
  split; [reflexivity | ].
  split; [lra | ].
  split.
  - rewrite Rabs_left by lra. lra.
  - cbn. unfold pid.error_of; cbn. lra.
Qed.

(** C4: a velocity command stores, as the setpoint of each channel, its
    component times the channel's maximum velocity: x and y times 8, z
    times 4, yaw times pi; the command (1, 0, 0, yaw 0) sets the
    x setpoint to 8. *)
Theorem cmd_vel_callback_scales_command (p : Tello) (msg : Twist) :
  let p' := cmd_vel_callback p msg in
  pid.setpoint (x_controller_ p') = vX (linear msg) * 8 /\
  pid.setpoint (y_controller_ p') = vY (linear msg) * 8 /\
  pid.setpoint (z_controller_ p') = vZ (linear msg) * 4 /\
  pid.setpoint (yaw_controller_ p') = vZ (angular msg) * PI /\
  pid.setpoint (x_controller_ (cmd_vel_callback p forward_command)) = 8.
Proof.
  cbv zeta; cbn. unfold MAX_XY_V. repeat split. ring.
Qed.

(** The update of the specification's controller at dt = 0: the
    derivative term is zero and the accumulator keeps its value, so the
    output is kp * error + ki * accumulator; that is kp * error when the
    integral gain or the accumulator is zero, as for every channel of
    the plugin. *)
Theorem update_with_zero_dt (c : pid.Controller) (measured : R) :
  let e := pid.error_of c measured in
  pid.derivative_of c e 0 = 0 /\
  pid.accumulator (snd (pid.update c measured 0)) = pid.accumulator c /\
  fst (pid.update c measured 0) = pid.kp c * e + pid.ki c * pid.accumulator c /\
  (pid.ki c = 0 \/ pid.accumulator c = 0 ->
   fst (pid.update c measured 0) = pid.kp c * e) /\
  (plugin_channel c -> fst (pid.calc c measured 0 0) = pid.kp c * e).
Proof.
  cbv zeta.
  assert (Hout : fst (pid.update c measured 0)
                 = pid.kp c * pid.error_of c measured
                   + pid.ki c * pid.accumulator c).
  { unfold pid.update; cbn [fst]. rewrite derivative_of_zero_dt. ring. }
  split; [apply derivative_of_zero_dt | ].
  split; [unfold pid.update; cbn [snd pid.accumulator]; ring | ].
  split; [exact Hout | ].
  split.
  - intros [Hki | Hacc]; rewrite Hout; [rewrite Hki | rewrite Hacc]; ring.
  - intros Hc. rewrite calc_bias_zero, Hout.
    destruct Hc as (_ & _ & Hi & _). rewrite Hi. ring.
Qed.

(** A controller with an integral gain and an empty accumulator. *)
Lemma update_with_zero_dt_witness :
  pid.accumulator (pid.set_target (pid.new false 2 1 0) 1) = 0 /\
  fst (pid.update (pid.set_target (pid.new false 2 1 0) 1) 0 0)
    = pid.kp (pid.set_target (pid.new false 2 1 0) 1)
      * pid.error_of (pid.set_target (pid.new false 2 1 0) 1) 0.
Proof.
  split; [reflexivity | ].
  apply (proj1 (proj2 (proj2 (proj2
           (update_with_zero_dt (pid.set_target (pid.new false 2 1 0) 1) 0))))).
  right; reflexivity.
Defined.

(** On the controller of the specification, gains (2, 1, 0), setpoint 1
    and accumulator 1 - the state after one update of measured value 0
    with dt = 1 - give 3 from update with dt = 0, while kp * error is 2.
    No channel of the plugin has an integral gain. *)
Lemma update_with_zero_dt_keeps_integral_term :
  wound_up = snd (pid.update (pid.set_target (pid.new false 2 1 0) 1) 0 1) /\
  pid.kp wound_up * pid.error_of wound_up 0 = 2 /\
  fst (pid.update wound_up 0 0) = 3 /\
  fst (pid.update wound_up 0 0) <> pid.kp wound_up * pid.error_of wound_up 0.
Proof.
  assert (He : pid.error_of wound_up 0 = 1) by (unfold pid.error_of; cbn; lra).
  assert (Hu : fst (pid.update wound_up 0 0) = 3).
  { unfold pid.update; cbn [fst]. rewrite derivative_of_zero_dt, He. cbn. lra. }
  split.
  - unfold wound_up, pid.update, pid.set_target, pid.new, pid.error_of; cbn.
    f_equal; lra.
  - rewrite Hu, He. cbn. repeat split; lra.
Qed.

(** C9: set_target stores its argument as the setpoint and changes
    nothing else of the controller, and a second one replaces the first.
    Hence after two velocity commands C1 and C2 in a row the four
    setpoints are C2's components times the maximum velocities, every
    controller keeps its flag, gains, accumulator and previous error,
    the stored time and the centre of mass are untouched, and the plugin
    is in the state C2 alone would leave; the next tick runs as it would
    after C2 alone, and for a plugin in a reachable state its raw
    demands are twice the difference of C2's scaled components and the
    measured velocities, with no trace of C1. *)
Theorem cmd_vel_last_write_wins (p : Tello) (c1 c2 : Twist) :
  let p2 := cmd_vel_callback (cmd_vel_callback p c1) c2 in
  (pid.setpoint (x_controller_ p2) = vX (linear c2) * 8 /\
   pid.setpoint (y_controller_ p2) = vY (linear c2) * 8 /\
   pid.setpoint (z_controller_ p2) = vZ (linear c2) * 4 /\
   pid.setpoint (yaw_controller_ p2) = vZ (angular c2) * PI) /\
  (keeps_all_but_setpoint (x_controller_ p) (x_controller_ p2) /\
   keeps_all_but_setpoint (y_controller_ p) (y_controller_ p2) /\
   keeps_all_but_setpoint (z_controller_ p) (z_controller_ p2) /\
   keeps_all_but_setpoint (yaw_controller_ p) (yaw_controller_ p2)) /\
  (sim_time_ p2 = sim_time_ p /\ center_of_mass_ p2 = center_of_mass_ p) /\
  p2 = cmd_vel_callback p c2 /\
  (forall info link,
     OnUpdate_run p2 info link = OnUpdate_run (cmd_vel_callback p c2) info link) /\
  (reachable p ->
   forall info link,
     l_lin_ubar_raw (OnUpdate_locals p2 info link)
       = mkVector3d (2 * (vX (linear c2) * 8 - vX (RelativeLinearVel link)))
                    (2 * (vY (linear c2) * 8 - vY (RelativeLinearVel link)))
                    (2 * (vZ (linear c2) * 4 - vZ (RelativeLinearVel link))) /\
     l_ang_ubar_raw (OnUpdate_locals p2 info link)
       = mkVector3d 0 0 (2 * (vZ (angular c2) * PI - vZ (RelativeAngularVel link)))) /\
  (forall (c : pid.Controller) (v : R),
     pid.setpoint (pid.set_target c v) = v /\
     keeps_all_but_setpoint c (pid.set_target c v)) /\
  (forall (c : pid.Controller) (a b : R),
     pid.set_target (pid.set_target c a) b = pid.set_target c b).
Proof.
  cbv zeta.
  assert (H : cmd_vel_callback (cmd_vel_callback p c1) c2 = cmd_vel_callback p c2)
    by (unfold cmd_vel_callback; cbn; reflexivity).
  split.
  { cbn. unfold MAX_XY_V, MAX_Z_V, MAX_ANG_V, M_PI. repeat split. }
  split; [cbn; unfold keeps_all_but_setpoint; cbn; repeat split | ].
  split; [split; reflexivity | ].
  split; [exact H | ].
  split; [intros info link; rewrite H; reflexivity | ].
  split.
  - intros Hreach info link.
    assert (Hreach2 : reachable (cmd_vel_callback (cmd_vel_callback p c1) c2))
      by (apply reach_cmd_vel, reach_cmd_vel, Hreach).
    destruct (reachable_channels _ Hreach2) as (Hx & Hy & Hz & Hyaw).
    destruct (OnUpdate_raw (cmd_vel_callback (cmd_vel_callback p c1) c2) info link)
      as [Hlin Hang].
    rewrite Hlin, Hang.
    set (dt := l_dt (OnUpdate_locals (cmd_vel_callback (cmd_vel_callback p c1) c2)
                       info link)).
    change (@calc pid.Controller pid_Controller) with pid.calc.
    rewrite (proj2 (plugin_channel_demand _ (vX (RelativeLinearVel link)) dt Hx)).
    rewrite (proj2 (plugin_channel_demand _ (vY (RelativeLinearVel link)) dt Hy)).
    rewrite (proj2 (plugin_channel_demand _ (vZ (RelativeLinearVel link)) dt Hz)).
    rewrite (proj2 (plugin_channel_demand _ (vZ (RelativeAngularVel link)) dt Hyaw)).
    cbn [cmd_vel_callback x_controller_ y_controller_ z_controller_ yaw_controller_
         set_target pid_Controller pid.set_target pid.setpoint].
    unfold MAX_XY_V, MAX_Z_V, MAX_ANG_V, M_PI. split; reflexivity.
  - split.
    + intros c v. split; [reflexivity | unfold keeps_all_but_setpoint; cbn; repeat split].
    + intros c a b. reflexivity.
Qed.

(** Two commands in a row on the loaded plugin, then a tick on a body
    that moves ahead at 3 m/s. *)
Lemma cmd_vel_last_write_wins_witness :
  reachable loaded_plugin /\
  vX (l_lin_ubar_raw
        (OnUpdate_locals
           (cmd_vel_callback (cmd_vel_callback loaded_plugin yaw_command)
                             forward_command)
           (mkUpdateInfo 1)
           (mkLink (mkVector3d 3 0 0) Vector3d_zero (mkInertial 1 level_MOI)
                   (mkPose3d Vector3d_zero identity_rotation) [] [])))
    = 2 * (1 * 8 - 3).
Proof.
  assert (Hreach : reachable loaded_plugin) by (apply reach_Load, reach_new).
  split; [exact Hreach | ].
  exact (f_equal vX (proj1 (proj1 (proj2 (proj2 (proj2 (proj2 (proj2
    (cmd_vel_last_write_wins loaded_plugin yaw_command forward_command))))))
    Hreach (mkUpdateInfo 1)
    (mkLink (mkVector3d 3 0 0) Vector3d_zero (mkInertial 1 level_MOI)
            (mkPose3d Vector3d_zero identity_rotation) [] [])))).
Defined.

(** ** The tick at concrete inputs *)

(** The first tick at simulation time 1. *)
Lemma OnUpdate_dt_is_time_difference_witness :
  sim_time_ loaded_plugin <= simTime (mkUpdateInfo 1) /\
  0 <= l_dt (OnUpdate_locals loaded_plugin (mkUpdateInfo 1)
               (resting_link 1 level_MOI identity_rotation)).
Proof.
  assert (Hle : sim_time_ loaded_plugin <= simTime (mkUpdateInfo 1))
    by (cbn; unfold Time_default; lra).
  split; [exact Hle | ].
  exact (proj1 (proj2 (proj2 (proj2
    (OnUpdate_dt_is_time_difference loaded_plugin (mkUpdateInfo 1)
       (resting_link 1 level_MOI identity_rotation))))) Hle).
Defined.

(** C2, as stated, fails: the first tick of a freshly constructed and
    loaded plugin, at simulation time 1, runs with dt = 1, not 0. *)
Lemma first_tick_dt_is_not_zero :
  sim_time_ loaded_plugin = 0 /\
  l_dt (OnUpdate_locals loaded_plugin (mkUpdateInfo 1)
          (resting_link 1 level_MOI identity_rotation)) = 1 /\
  l_dt (OnUpdate_locals loaded_plugin (mkUpdateInfo 1)
          (resting_link 1 level_MOI identity_rotation)) <> 0.
Proof.
  split; [reflexivity | ].
  rewrite OnUpdate_dt; cbn; unfold Time_default.
  split; lra.
Qed.

(** A body without products of inertia, under a full yaw-rate command. *)
Lemma OnUpdate_force_and_torque_witness :
  let p := cmd_vel_callback loaded_plugin yaw_command in
  let link := resting_link 1 level_MOI identity_rotation in
  let L := OnUpdate_locals p (mkUpdateInfo 1) link in
  m20 level_MOI = 0 /\ m21 level_MOI = 0 /\
  l_torque L = vmul (l_ang_ubar L) (principal_moments level_MOI).
Proof.
  cbv zeta.
  split; [reflexivity | ].
  split; [reflexivity | ].
  exact (proj1 (proj2 (proj2 (proj2
    (OnUpdate_force_and_torque (cmd_vel_callback loaded_plugin yaw_command)
       (mkUpdateInfo 1) (resting_link 1 level_MOI identity_rotation)))))
    eq_refl eq_refl).
Defined.

(** C5, as stated, fails: for a body at rest with Ixz = 1 and a full
    yaw-rate command, the torque is (pi, 0, 3 pi), while the clamped
    angular demand (0, 0, pi) multiplied component-wise by the moments
    (3, 4, 3) is (0, 0, 3 pi). *)
Lemma torque_is_not_componentwise :
  let p := cmd_vel_callback loaded_plugin yaw_command in
  let link := resting_link 1 skew_MOI identity_rotation in
  let L := OnUpdate_locals p (mkUpdateInfo 1) link in
  l_ang_ubar L = mkVector3d 0 0 PI /\
  l_torque L = mkVector3d PI 0 (3 * PI) /\
  vmul (l_ang_ubar L) (principal_moments (MOI (GetInertial link)))
    = mkVector3d 0 0 (3 * PI) /\
  l_torque L <> vmul (l_ang_ubar L) (principal_moments (MOI (GetInertial link))).
Proof.
  pose proof PI_gt_3 as Hpi.
  cbv zeta.
  assert (Ha : l_ang_ubar (OnUpdate_locals
                 (cmd_vel_callback loaded_plugin yaw_command) (mkUpdateInfo 1)
                 (resting_link 1 skew_MOI identity_rotation))
               = mkVector3d 0 0 PI).
  { destruct (OnUpdate_clamped
                (cmd_vel_callback loaded_plugin yaw_command) (mkUpdateInfo 1)
                (resting_link 1 skew_MOI identity_rotation)) as [_ H].
    rewrite H. f_equal.
    unfold MAX_ANG_A, M_PI. apply clamp_above.
    cbn. unfold pid.error_of, MAX_ANG_V, M_PI; cbn. lra. }
  rewrite OnUpdate_torque, Ha.
  unfold vec_mat, vmul, principal_moments; cbn.
  split; [reflexivity | ].
  split; [f_equal; ring | ].
  split; [f_equal; ring | ].
  intros Heq. injection Heq as Hx _ _. lra.
Qed.

(** A body that is rolled by 0.3 and yawed by 1, not pitched. *)
Lemma OnUpdate_zeroes_quaternion_xy_witness :
  let link := resting_link 1 level_MOI (from_euler 0.3 0 1) in
  Rot (WorldPose link) = from_euler 0.3 0 1 /\
  Rot (WorldPose (snd (OnUpdate loaded_plugin (mkUpdateInfo 1) link)))
    = qscale (cos (0.3 / 2)) (from_euler 0 0 1).
Proof.
  cbv zeta.
  split; [reflexivity | ].
  exact (proj1 (proj2 (proj2 (proj2 (proj2 (proj2 (proj2
    (OnUpdate_zeroes_quaternion_xy loaded_plugin (mkUpdateInfo 1)
       (resting_link 1 level_MOI (from_euler 0.3 0 1)))))))))
    0.3 1 eq_refl).
Defined.

(** C6, as stated, fails: from the orientation with roll 0.3, pitch -0.2
    and yaw 1 the tick does not produce the orientation with roll 0,
    pitch 0 and yaw 1, nor any multiple of its quaternion. *)
Lemma yaw_is_not_preserved :
  let link := resting_link 1 level_MOI (from_euler 0.3 (- 0.2) 1) in
  let q' := Rot (WorldPose (snd (OnUpdate loaded_plugin (mkUpdateInfo 1) link))) in
  q' <> from_euler 0 0 1 /\ ~ same_rotation q' (from_euler 0 0 1).
Proof.
  cbv zeta.
  assert (Hno : ~ same_rotation
                  (Rot (WorldPose (snd (OnUpdate loaded_plugin (mkUpdateInfo 1)
                     (resting_link 1 level_MOI (from_euler 0.3 (- 0.2) 1))))))
                  (from_euler 0 0 1)).
  { intros (k & Hk & Heq).
    cbn in Heq. unfold qsetX, qsetY, from_euler, qscale in Heq.
    cbn [qW qX qY qZ] in Heq.
    replace (0 / 2) with 0 in Heq by lra.
    rewrite sin_0, cos_0 in Heq.
    injection Heq as Hw _ _ Hz.
    pose proof PI_gt_3 as Hpi.
    assert (Hsr : 0 < sin (0.3 / 2)) by (apply sin_gt_0; lra).
    assert (Hsp : sin (- 0.2 / 2) < 0) by (apply sin_lt_0_var; lra).
    pose proof (sin2_cos2 (1 / 2)) as Hsc. unfold Rsqr in Hsc.
    set (sr := sin (0.3 / 2)) in *. set (cr := cos (0.3 / 2)) in *.
    set (sp := sin (- 0.2 / 2)) in *. set (cp := cos (- 0.2 / 2)) in *.
    set (sy := sin (1 / 2)) in *. set (cy := cos (1 / 2)) in *.
    assert (E : sr * sp = 0).
    { replace (sr * sp) with (sr * sp * (sy * sy + cy * cy))
        by (rewrite Hsc; ring).
      replace (sr * sp * (sy * sy + cy * cy))
        with ((cr * cp * cy + sr * sp * sy) * sy
              - (cr * cp * sy - sr * sp * cy) * cy) by ring.
      rewrite Hw, Hz. ring. }
    nra. }
  split; [ | exact Hno].
  intros Heq. apply Hno. exists 1. split; [lra | ].
  rewrite Heq. unfold from_euler, qscale; cbn [qW qX qY qZ].
  f_equal; ring.
Qed.

(** ** The scenario of a full-speed command

    Measured x velocity 0, command (1, 0, 0, yaw 0), dt = 0.1: the
    x setpoint is 8, the raw demand 16, the clamped demand 8 and the
    force 8 times the mass. *)
Example full_speed_ahead (mass : R) :
  let p := cmd_vel_callback loaded_plugin forward_command in
  let L := OnUpdate_locals p (mkUpdateInfo 0.1)
             (resting_link mass level_MOI identity_rotation) in
  l_dt L = 0.1 /\
  vX (l_lin_ubar_raw L) = 16 /\
  vX (l_lin_ubar L) = 8 /\
  vX (l_force L) = 8 * mass.
Proof.
  cbv zeta.
  assert (Hraw : vX (l_lin_ubar_raw (OnUpdate_locals
                   (cmd_vel_callback loaded_plugin forward_command)
                   (mkUpdateInfo 0.1)
                   (resting_link mass level_MOI identity_rotation))) = 16).
  { cbn. unfold pid.error_of, MAX_XY_V; cbn. lra. }
  assert (Hcl : vX (l_lin_ubar (OnUpdate_locals
                   (cmd_vel_callback loaded_plugin forward_command)
                   (mkUpdateInfo 0.1)
                   (resting_link mass level_MOI identity_rotation))) = 8).
  { destruct (OnUpdate_clamped
                (cmd_vel_callback loaded_plugin forward_command)
                (mkUpdateInfo 0.1)
                (resting_link mass level_MOI identity_rotation)) as [H _].
    rewrite H; cbn [vX]. rewrite Hraw. unfold MAX_XY_A. apply clamp_above. lra. }
  split; [rewrite OnUpdate_dt; cbn; unfold Time_default; lra | ].
  split; [exact Hraw | ].
  split; [exact Hcl | ].
  rewrite OnUpdate_force; unfold scale; cbn [vX]. rewrite Hcl. reflexivity.
Qed.

(** * Further properties of the plugin *)

(** ** clamp *)

(** X1: for a bound that is not negative, clamp is monotone: a larger
    value never gets a smaller result. *)
Theorem clamp_monotone (a b m : R) :
  0 <= m -> a <= b -> clamp a m <= clamp b m.
Proof. intros Hm Hab; clamp_cases. Qed.

Lemma clamp_monotone_witness : 0 <= 8 /\ -20 <= 3 /\ clamp (-20) 8 <= clamp 3 8.
Proof.
  split; [lra | split; [lra | apply clamp_monotone; lra]].
Defined.

(** X2: for a bound that is not negative, clamp brings values closer
    together and closer to zero: the distance of two results is at most
    the distance of the values, and a result is never larger in
    magnitude than its value. *)
Theorem clamp_nonexpansive (a b m : R) :
  0 <= m ->
  Rabs (clamp a m - clamp b m) <= Rabs (a - b) /\ Rabs (clamp a m) <= Rabs a.
Proof.
  intros Hm; split; unfold Rabs;
    repeat match goal with
           | |- context [Rcase_abs ?x] => destruct (Rcase_abs x)
           end;
    clamp_cases.
Qed.

Lemma clamp_nonexpansive_witness :
  0 <= 8 /\
  Rabs (clamp 16 8 - clamp 7 8) <= Rabs (16 - 7) /\ Rabs (clamp 16 8) <= Rabs 16.
Proof.
  split; [lra | apply clamp_nonexpansive; lra].
Defined.

(** X3: with a negative bound clamp does not saturate: it returns the
    bound for a value above it and the negated bound otherwise, never
    the value itself, and clamping the result again flips its sign. *)
Theorem clamp_negative_bound (v m : R) :
  m < 0 ->
  (v > m -> clamp v m = m) /\
  (v <= m -> clamp v m = - m) /\
  clamp v m <> v /\
  clamp (clamp v m) m = - clamp v m /\
  clamp (clamp v m) m <> clamp v m.
Proof.
  intros Hm.
  assert (Hhi : v > m -> clamp v m = m) by (intros; clamp_cases).
  assert (Hlo : v <= m -> clamp v m = - m) by (intros; clamp_cases).
  split; [exact Hhi | ].
  split; [exact Hlo | ].
  destruct (Rle_lt_dec v m) as [Hv | Hv].
  - rewrite (Hlo Hv).
    assert (Hc : clamp (- m) m = m) by clamp_cases.
    rewrite Hc. repeat split; lra.
  - rewrite (Hhi Hv).
    assert (Hc : clamp m m = - m) by clamp_cases.
    rewrite Hc. repeat split; lra.
Qed.

Lemma clamp_negative_bound_witness :
  -1 < 0 /\ clamp 0 (-1) = -1 /\ clamp (clamp 0 (-1)) (-1) <> clamp 0 (-1).
Proof.
  assert (Hm : -1 < 0) by lra.
  assert (Hv : 0 > -1) by lra.
  split; [exact Hm | ].
  split.
  - exact (proj1 (clamp_negative_bound 0 (-1) Hm) Hv).
  - exact (proj2 (proj2 (proj2 (proj2 (clamp_negative_bound 0 (-1) Hm))))).
Defined.

(** ** One tick *)

Section TickBounds.

Context {C : Type} {pidC : PidController C}.

Lemma Rabs_clamp_le (v m : R) : 0 <= m -> Rabs (clamp v m) <= m.
Proof. intros Hm. apply Rabs_le. now apply clamp_bounds. Qed.

(** X4: whatever the controllers return, for a mass that is not negative
    the force of a tick is at most 8 times the mass along x and along y
    and 4 times the mass along z, and each component of the torque is at
    most pi times the magnitude of the entry of the inertia matrix's
    last row it comes from. *)
Theorem OnUpdate_force_bounded
  (p : TelloPlugin C) (info : UpdateInfo) (link : Link) :
  0 <= Mass (GetInertial link) ->
  let L := OnUpdate_locals p info link in
  let mass := Mass (GetInertial link) in
  let M := MOI (GetInertial link) in
  Rabs (vX (l_force L)) <= 8 * mass /\
  Rabs (vY (l_force L)) <= 8 * mass /\
  Rabs (vZ (l_force L)) <= 4 * mass /\
  Rabs (vX (l_torque L)) <= PI * Rabs (m20 M) /\
  Rabs (vY (l_torque L)) <= PI * Rabs (m21 M) /\
  Rabs (vZ (l_torque L)) <= PI * Rabs (m22 M).
Proof.
  intros Hmass; cbv zeta.
  pose proof PI_gt_3 as Hpi.
  assert (Hf : forall v m, 0 <= m ->
             Rabs (clamp v m * Mass (GetInertial link))
               <= m * Mass (GetInertial link)).
  { intros v m Hm. rewrite Rabs_mult, (Rabs_pos_eq _ Hmass).
    apply Rmult_le_compat_r; [exact Hmass | now apply Rabs_clamp_le]. }
  assert (Ht : forall k v, Rabs (k * 0 + k * 0 + k * clamp v PI) <= PI * Rabs k).
  { intros k v. replace (k * 0 + k * 0 + k * clamp v PI) with (clamp v PI * k) by ring.
    rewrite Rabs_mult.
    apply Rmult_le_compat_r; [apply Rabs_pos | apply Rabs_clamp_le; lra]. }
  rewrite OnUpdate_force, OnUpdate_torque.
  destruct (OnUpdate_clamped p info link) as [Hl Ha]. rewrite Hl, Ha.
  unfold scale, vec_mat, MAX_XY_A, MAX_Z_A, MAX_ANG_A, M_PI; cbn [vX vY vZ].
  repeat split; try (apply Hf; lra).
  - replace (m00 (MOI (GetInertial link)) * 0 + m10 (MOI (GetInertial link)) * 0)
      with (m20 (MOI (GetInertial link)) * 0 + m20 (MOI (GetInertial link)) * 0)
      by ring.
    apply Ht.
  - replace (m01 (MOI (GetInertial link)) * 0 + m11 (MOI (GetInertial link)) * 0)
      with (m21 (MOI (GetInertial link)) * 0 + m21 (MOI (GetInertial link)) * 0)
      by ring.
    apply Ht.
  - replace (m02 (MOI (GetInertial link)) * 0 + m12 (MOI (GetInertial link)) * 0)
      with (m22 (MOI (GetInertial link)) * 0 + m22 (MOI (GetInertial link)) * 0)
      by ring.
    apply Ht.
Qed.

(** X10: the orientation a tick writes has the squared norm of the
    orientation it read minus the squares of the x and y components it
    dropped, so it is never longer; a unit quaternion stays a unit
    quaternion only if its x and y components were zero already; a
    quaternion with w = z = 0 (a half turn about a horizontal axis)
    becomes the zero quaternion; and a tick on the pose a tick has
    written leaves that pose as it is. *)
Theorem OnUpdate_pose_norm
  (p : TelloPlugin C) (info : UpdateInfo) (link : Link) :
  let q := Rot (WorldPose link) in
  let link' := snd (OnUpdate p info link) in
  let q' := Rot (WorldPose link') in
  qnorm2 q' = qnorm2 q - qX q * qX q - qY q * qY q /\
  qnorm2 q' <= qnorm2 q /\
  (qnorm2 q = 1 -> qnorm2 q' = 1 -> qX q = 0 /\ qY q = 0) /\
  (qW q = 0 -> qZ q = 0 -> q' = mkQuaterniond 0 0 0 0) /\
  (forall p2 info2,
     WorldPose (snd (OnUpdate p2 info2 link')) = WorldPose link').
Proof.
  cbv zeta. unfold qnorm2. cbn.
  split; [ring | ].
  split; [nra | ].
  split; [intros H1 H2; split; nra | ].
  split; [ | reflexivity].
  intros Hw Hz. unfold qsetX, qsetY; cbn. now rewrite Hw, Hz.
Qed.

End TickBounds.

Lemma OnUpdate_force_bounded_witness :
  0 <= Mass (GetInertial (resting_link 2 skew_MOI identity_rotation)) /\
  Rabs (vX (l_force (OnUpdate_locals
                       (cmd_vel_callback loaded_plugin forward_command)
                       (mkUpdateInfo 1)
                       (resting_link 2 skew_MOI identity_rotation))))
    <= 8 * 2.
Proof.
  assert (Hm : 0 <= Mass (GetInertial (resting_link 2 skew_MOI identity_rotation)))
    by (cbn; lra).
  split; [exact Hm | ].
  exact (proj1 (OnUpdate_force_bounded
                  (cmd_vel_callback loaded_plugin forward_command)
                  (mkUpdateInfo 1)
                  (resting_link 2 skew_MOI identity_rotation) Hm)).
Defined.

Lemma OnUpdate_pose_norm_witness :
  let link := resting_link 1 level_MOI (mkQuaterniond 0 1 0 0) in
  qW (Rot (WorldPose link)) = 0 /\ qZ (Rot (WorldPose link)) = 0 /\
  Rot (WorldPose (snd (OnUpdate loaded_plugin (mkUpdateInfo 1) link)))
    = mkQuaterniond 0 0 0 0.
Proof.
  cbv zeta.
  split; [reflexivity | ].
  split; [reflexivity | ].
  exact (proj1 (proj2 (proj2 (proj2
    (OnUpdate_pose_norm loaded_plugin (mkUpdateInfo 1)
       (resting_link 1 level_MOI (mkQuaterniond 0 1 0 0))))))
    eq_refl eq_refl).
Defined.

(** ** Runs of events *)

Lemma Rsum_app (l1 l2 : list R) : Rsum (l1 ++ l2) = Rsum l1 + Rsum l2.
Proof.
  unfold Rsum.
  induction l1 as [ | x l1 IH]; cbn [app fold_right]; [ring | ].
  rewrite IH. ring.
Qed.

Section Runs.

Context {C : Type} {pidC : PidController C}.

Lemma run_cons (w : World C) (e : Event) (events : list Event) :
  run w (e :: events) = run (handle w e) events.
Proof. reflexivity. Qed.

Lemma run_snoc (w : World C) (events : list Event) (e : Event) :
  run w (events ++ [e]) = handle (run w events) e.
Proof. unfold run. now rewrite fold_left_app. Qed.

(** X6: in any run that starts with nothing sent, the flight data
    published is one message per timer event, in order, stamped with the
    clock of that event and always reporting SDK 1.3 and battery 80;
    nothing is ever published as a Tello response; and every action
    request is answered with the response as the service constructed
    it. *)
Theorem run_outputs (p : TelloPlugin C) (events : list Event) :
  flight_data_out (run (start p) events)
    = map (fun now => mkFlightData now SDK_1_3 80) (timer_times events) /\
  tello_response_out (run (start p) events) = [] /\
  Forall (fun r => r = mkResponse 0) (action_replies (run (start p) events)).
Proof.
  assert (G : forall (w : World C),
            flight_data_out (run w events)
              = flight_data_out w
                ++ map (fun now => mkFlightData now SDK_1_3 80) (timer_times events) /\
            tello_response_out (run w events) = tello_response_out w /\
            (Forall (fun r => r = mkResponse 0) (action_replies w) ->
             Forall (fun r => r = mkResponse 0) (action_replies (run w events)))).
  { induction events as [ | e events IH]; intros w.
    - cbn. rewrite app_nil_r. repeat split; trivial.
    - rewrite run_cons. destruct (IH (handle w e)) as (Hf & Ht & Ha).
      rewrite Hf, Ht.
      destruct e; cbn [handle flight_data_out tello_response_out
                       action_replies timer_times spin_10Hz snd fst map].
      + repeat split; trivial.
      + repeat split; trivial.
      + repeat split; trivial. intros Hall. apply Ha. cbn.
        apply Forall_app; split; [exact Hall | repeat constructor].
      + rewrite <- app_assoc. repeat split; trivial. }
  destruct (G (start p)) as (Hf & Ht & Ha).
  split; [exact Hf | ].
  split; [exact Ht | ].
  apply Ha. constructor.
Qed.


(** X8: the time steps of the ticks of a run add up to the simulation
    time of its last world update minus the time the plugin had stored
    at the start: no simulated time is lost or counted twice, whatever
    happens between the ticks. *)
Theorem run_time_steps_add_up (p : TelloPlugin C) (events : list Event) :
  Rsum (map (fun t => l_dt (fst t)) (ticks_out (run (start p) events)))
    = sim_time_ (plugin (run (start p) events)) - sim_time_ p.
Proof.
  assert (G : forall (w : World C),
            Rsum (map (fun t => l_dt (fst t)) (ticks_out (run w events)))
              = Rsum (map (fun t => l_dt (fst t)) (ticks_out w))
                + (sim_time_ (plugin (run w events)) - sim_time_ (plugin w))).
  { induction events as [ | e events IH]; intros w.
    - cbn. ring.
    - rewrite run_cons, IH.
      destruct e; cbn [handle ticks_out plugin]; try (cbn; ring).
      rewrite map_app, Rsum_app. cbn [map fst]. unfold Rsum at 2.
      cbn [fold_right]. rewrite OnUpdate_dt, OnUpdate_sim_time. ring. }
  rewrite G. cbn. ring.
Qed.

(** X9: the four channels do not see each other.  After any run, the
    controller of a channel is what that channel alone went through:
    its targets are its own component of the commands times its own
    maximum (x and y of the linear part times 8, z times 4, z of the
    angular part times pi), its measurements are its own component of
    the link's velocity, and the time step is the one of the tick. *)
Theorem run_channels_are_independent (w : World C) (events : list Event) :
  let t0 := sim_time_ (plugin w) in
  let w' := run w events in
  (x_controller_ (plugin w'), sim_time_ (plugin w'))
    = channel_run (fun msg => vX (linear msg) * MAX_XY_V)
                  (fun link => vX (RelativeLinearVel link))
                  (x_controller_ (plugin w), t0) events /\
  (y_controller_ (plugin w'), sim_time_ (plugin w'))
    = channel_run (fun msg => vY (linear msg) * MAX_XY_V)
                  (fun link => vY (RelativeLinearVel link))
                  (y_controller_ (plugin w), t0) events /\
  (z_controller_ (plugin w'), sim_time_ (plugin w'))
    = channel_run (fun msg => vZ (linear msg) * MAX_Z_V)
                  (fun link => vZ (RelativeLinearVel link))
                  (z_controller_ (plugin w), t0) events /\
  (yaw_controller_ (plugin w'), sim_time_ (plugin w'))
    = channel_run (fun msg => vZ (angular msg) * MAX_ANG_V)
                  (fun link => vZ (RelativeAngularVel link))
                  (yaw_controller_ (plugin w), t0) events.
Proof.
  cbv zeta. revert w.
  induction events as [ | e events IH]; intros w.
  - repeat split.
  - rewrite run_cons.
    destruct (IH (handle w e)) as (Hx & Hy & Hz & Hyaw).
    rewrite Hx, Hy, Hz, Hyaw.
    destruct e; repeat split.
Qed.

End Runs.

(** ** Load *)

Lemma string_length_append (s t : string) :
  String.length (s ++ t) = (String.length s + String.length t)%nat.
Proof. induction s as [ | c s IH]; cbn; [reflexivity | now rewrite IH]. Qed.

Lemma append_cancel_l (s a b : string) : (s ++ a = s ++ b)%string -> a = b.
Proof.
  induction s as [ | c s IH]; cbn; intros H; [exact H | ].
  injection H as H. now apply IH.
Qed.

Lemma append_cancel_r (t s1 s2 : string) : (s1 ++ t = s2 ++ t)%string -> s1 = s2.
Proof.
  revert s2. induction s1 as [ | c s1 IH]; intros [ | c2 s2] H.
  - reflexivity.
  - apply (f_equal String.length) in H. cbn in H.
    rewrite string_length_append in H. lia.
  - apply (f_equal String.length) in H. cbn in H.
    rewrite string_length_append in H. lia.
  - cbn in H. injection H as Hc H. subst c2. f_equal. now apply IH.
Qed.

(** The namespace with its slash determines the namespace. *)
Lemma namespace_prefix_inj (a b : string) :
  (if negb (empty a) then a ++ "/" else a)%string
    = (if negb (empty b) then b ++ "/" else b)%string ->
  a = b.
Proof.
  destruct a as [ | ca a], b as [ | cb b]; cbn; intros H;
    try reflexivity; try discriminate.
  injection H as Hc H. subst cb. f_equal. now apply (append_cancel_r "/").
Qed.

Section LoadFacts.

Context {C : Type} {pidC : PidController C}.

(** X11: [Load] fails exactly when the model has no link of the name the
    SDF gives, or of the name base_link when it gives none; when it
    succeeds, the link it binds is that one, the timer runs every 100 ms,
    the centre of mass is the SDF's when it gives one and stays as it
    was otherwise, and the controllers and the stored time are those of
    the plugin before. *)
Theorem Load_all_needs_the_link (p : TelloPlugin C) (model : Model) (sdf : SDF) :
  let name :=
    match el_link_name sdf with Some s => s | None => "base_link"%string end in
  (Load_all p model sdf = None <-> GetLink model name = None) /\
  (forall r, Load_all p model sdf = Some r ->
     GetLink model name = Some (snd (fst r)) /\
     timer_period_ms (snd r) = 100%Z /\
     center_of_mass_ (fst (fst r))
       = match el_center_of_mass sdf with
         | Some c => c
         | None => center_of_mass_ p
         end /\
     sim_time_ (fst (fst r)) = sim_time_ p /\
     x_controller_ (fst (fst r)) = x_controller_ p /\
     y_controller_ (fst (fst r)) = y_controller_ p /\
     z_controller_ (fst (fst r)) = z_controller_ p /\
     yaw_controller_ (fst (fst r)) = yaw_controller_ p).
Proof.
  cbv zeta. unfold Load_all.
  destruct (GetLink model
              match el_link_name sdf with
              | Some s => s
              | None => "base_link"%string
              end) as [l | ].
  - split; [split; discriminate | ].
    intros r Hr. injection Hr as <-. cbn [fst snd timer_period_ms].
    destruct (el_center_of_mass sdf); repeat split.
  - split; [split; reflexivity | ].
    intros r Hr. discriminate.
Qed.

(** X12: the names [Load] gives its endpoints follow the namespace and
    nothing else: two loads with the same namespace (an absent one
    counts as the empty one) get the same names, two loads that share
    the name of any one endpoint have the same namespace, the four names
    of one load are pairwise different, and without a namespace the
    names are the bare ones. *)
Theorem Load_all_names_follow_namespace
  (p1 p2 : TelloPlugin C) (model1 model2 : Model) (sdf1 sdf2 : SDF)
  (r1 r2 : TelloPlugin C * Link * Endpoints) :
  Load_all p1 model1 sdf1 = Some r1 ->
  Load_all p2 model2 sdf2 = Some r2 ->
  let ns1 := match el_ns sdf1 with Some s => s | None => EmptyString end in
  let ns2 := match el_ns sdf2 with Some s => s | None => EmptyString end in
  let e1 := snd r1 in
  let e2 := snd r2 in
  (ns1 = ns2 -> e1 = e2) /\
  (flight_data_topic e1 = flight_data_topic e2 -> ns1 = ns2) /\
  (tello_response_topic e1 = tello_response_topic e2 -> ns1 = ns2) /\
  (tello_action_service e1 = tello_action_service e2 -> ns1 = ns2) /\
  (cmd_vel_topic e1 = cmd_vel_topic e2 -> ns1 = ns2) /\
  (flight_data_topic e1 <> tello_response_topic e1 /\
   flight_data_topic e1 <> tello_action_service e1 /\
   flight_data_topic e1 <> cmd_vel_topic e1 /\
   tello_response_topic e1 <> tello_action_service e1 /\
   tello_response_topic e1 <> cmd_vel_topic e1 /\
   tello_action_service e1 <> cmd_vel_topic e1) /\
  (ns1 = EmptyString ->
   e1 = mkEndpoints "flight_data" "tello_response" "tello_action" "cmd_vel" 100).
Proof.
  intros H1 H2; cbv zeta.
  unfold Load_all in H1, H2.
  destruct (GetLink model1 _) as [l1 | ]; [ | discriminate].
  destruct (GetLink model2 _) as [l2 | ]; [ | discriminate].
  injection H1 as <-. injection H2 as <-. cbn [snd].
  set (n1 := match el_ns sdf1 with Some s => s | None => EmptyString end).
  set (n2 := match el_ns sdf2 with Some s => s | None => EmptyString end).
  cbn [flight_data_topic tello_response_topic tello_action_service cmd_vel_topic].
  split; [intros ->; reflexivity | ].
  split; [intros H; apply namespace_prefix_inj;
          now apply (append_cancel_r "flight_data") | ].
  split; [intros H; apply namespace_prefix_inj;
          now apply (append_cancel_r "tello_response") | ].
  split; [intros H; apply namespace_prefix_inj;
          now apply (append_cancel_r "tello_action") | ].
  split; [intros H; apply namespace_prefix_inj;
          now apply (append_cancel_r "cmd_vel") | ].
  split.
  - repeat split; intros H; apply append_cancel_l in H; discriminate.
  - intros ->. reflexivity.
Qed.

End LoadFacts.

Lemma Load_all_needs_the_link_witness :
  Load_all loaded_plugin
    [("base_link"%string, resting_link 1 level_MOI identity_rotation)]
    (mkSDF None None (Some (mkVector3d 0 0 1)))
  = Some (Load loaded_plugin (Some (mkVector3d 0 0 1)),
          resting_link 1 level_MOI identity_rotation,
          mkEndpoints "flight_data" "tello_response" "tello_action" "cmd_vel" 100) /\
  center_of_mass_ (Load loaded_plugin (Some (mkVector3d 0 0 1)))
  = mkVector3d 0 0 1.
Proof.
  assert (H : Load_all loaded_plugin
                [("base_link"%string, resting_link 1 level_MOI identity_rotation)]
                (mkSDF None None (Some (mkVector3d 0 0 1)))
              = Some (Load loaded_plugin (Some (mkVector3d 0 0 1)),
                      resting_link 1 level_MOI identity_rotation,
                      mkEndpoints "flight_data" "tello_response" "tello_action"
                                  "cmd_vel" 100))
    by reflexivity.
  split; [exact H | ].
  exact (proj1 (proj2 (proj2 (proj2
    (Load_all_needs_the_link loaded_plugin
       [("base_link"%string, resting_link 1 level_MOI identity_rotation)]
       (mkSDF None None (Some (mkVector3d 0 0 1)))) _ H)))).
Defined.

Lemma Load_all_names_follow_namespace_witness :
  let model := [("body"%string, resting_link 1 level_MOI identity_rotation)] in
  let sdf := mkSDF (Some "drone1"%string) (Some "body"%string) None in
  let r := (loaded_plugin, resting_link 1 level_MOI identity_rotation,
            mkEndpoints "drone1/flight_data" "drone1/tello_response"
                        "drone1/tello_action" "drone1/cmd_vel" 100) in
  Load_all loaded_plugin model sdf = Some r /\
  flight_data_topic (snd r) <> cmd_vel_topic (snd r).
Proof.
  cbv zeta.
  assert (H : Load_all loaded_plugin
                [("body"%string, resting_link 1 level_MOI identity_rotation)]
                (mkSDF (Some "drone1"%string) (Some "body"%string) None)
              = Some (loaded_plugin, resting_link 1 level_MOI identity_rotation,
                      mkEndpoints "drone1/flight_data" "drone1/tello_response"
                                  "drone1/tello_action" "drone1/cmd_vel" 100))
    by reflexivity.
  split; [exact H | ].
  exact (proj1 (proj2 (proj2 (proj1 (proj2 (proj2 (proj2 (proj2 (proj2
    (Load_all_names_follow_namespace loaded_plugin loaded_plugin _ _ _ _ _ _
       H H)))))))))).
Defined.

(** ** The static counter in a process with several instances *)

Lemma OnUpdate_count_step (count : Z) :
  (0 <= count <= 100)%Z ->
  snd (OnUpdate_count count) = ((count + 1) mod 101)%Z.
Proof.
  intros H. unfold OnUpdate_count.
  destruct (Z.gtb_spec (count + 1) 100) as [Hgt | Hle]; cbn [snd].
  - replace (count + 1)%Z with 101%Z by lia. reflexivity.
  - symmetry. apply Z.mod_small. lia.
Qed.

Lemma OnUpdate_count_never_debugs (count : Z) : fst (OnUpdate_count count) = false.
Proof.
  unfold OnUpdate_count. destruct (count + 1 >? 100)%Z; reflexivity.
Qed.

Lemma set_nth_length {A : Type} (i : nat) (x : A) (l : list A) :
  List.length (set_nth i x l) = List.length l.
Proof.
  revert i. induction l as [ | y l IH]; intros [ | j]; cbn; try reflexivity.
  now rewrite IH.
Qed.

Section ProcessFacts.

Context {C : Type} {pidC : PidController C}.

Lemma Process_OnUpdate_instances (pr : Process C) (i : nat) (info : UpdateInfo)
  (link : Link) :
  List.length (instances (Process_OnUpdate pr i info link))
    = List.length (instances pr).
Proof.
  unfold Process_OnUpdate. destruct (nth_error (instances pr) i); cbn.
  - apply set_nth_length.
  - reflexivity.
Qed.

(** X5: the counter of [OnUpdate] belongs to the process.  Through any
    sequence of calls of [OnUpdate], each on an instance the process
    has and in whatever order the instances take turns, the counter is
    where it started plus the number of all calls, modulo 101 - not the
    calls of one instance - and it stays between 0 and 100; the number
    of instances does not change; and no call ever has its debug flag
    set, so the debug printing never runs. *)
Theorem Process_counts_all_calls
  (pr : Process C) (calls : list (nat * UpdateInfo * Link)) :
  (0 <= static_count pr <= 100)%Z ->
  Forall (fun c => (fst (fst c) < List.length (instances pr))%nat) calls ->
  static_count (Process_run pr calls)
    = ((static_count pr + Z.of_nat (List.length calls)) mod 101)%Z /\
  (0 <= static_count (Process_run pr calls) <= 100)%Z /\
  List.length (instances (Process_run pr calls)) = List.length (instances pr) /\
  (forall count : Z, fst (OnUpdate_count count) = false).
Proof.
  revert pr. induction calls as [ | c calls IH]; intros pr Hr Hv.
  - cbn. rewrite Z.add_0_r.
    split; [symmetry; apply Z.mod_small; lia | ].
    split; [exact Hr | ].
    split; [reflexivity | apply OnUpdate_count_never_debugs].
  - inversion Hv as [ | c' calls' Hc Hcalls]; subst.
    change (Process_run pr (c :: calls))
      with (Process_run (Process_OnUpdate pr (fst (fst c)) (snd (fst c)) (snd c))
                        calls).
    set (pr1 := Process_OnUpdate pr (fst (fst c)) (snd (fst c)) (snd c)).
    assert (Hlen : List.length (instances pr1) = List.length (instances pr))
      by apply Process_OnUpdate_instances.
    assert (Hstep : static_count pr1 = ((static_count pr + 1) mod 101)%Z).
    { unfold pr1, Process_OnUpdate.
      destruct (nth_error (instances pr) (fst (fst c))) as [p | ] eqn:Hn.
      - cbn [static_count]. now apply OnUpdate_count_step.
      - apply nth_error_None in Hn. lia. }
    assert (Hr1 : (0 <= static_count pr1 <= 100)%Z).
    { rewrite Hstep. pose proof (Z.mod_pos_bound (static_count pr + 1) 101). lia. }
    assert (Hv1 : Forall (fun c => (fst (fst c) < List.length (instances pr1))%nat)
                         calls)
      by (rewrite Hlen; exact Hcalls).
    destruct (IH pr1 Hr1 Hv1) as (Hcount & Hrange & Hinst & Hdebug).
    split; [ | split; [exact Hrange | split; [now rewrite Hinst | exact Hdebug]]].
    rewrite Hcount, Hstep, Zplus_mod_idemp_l. f_equal.
    cbn [List.length]. lia.
Qed.

End ProcessFacts.

(** Two drones in one simulation, three world updates in which the
    first drone ticks twice: the counter stands at three. *)
Lemma Process_counts_all_calls_witness :
  let pr := mkProcess count_initial [loaded_plugin; loaded_plugin] in
  let link := resting_link 1 level_MOI identity_rotation in
  let calls := [(0%nat, mkUpdateInfo 1, link);
                (1%nat, mkUpdateInfo 1, link);
                (0%nat, mkUpdateInfo 2, link)] in
  (0 <= static_count pr <= 100)%Z /\
  Forall (fun c => (fst (fst c) < List.length (instances pr))%nat) calls /\
  static_count (Process_run pr calls) = 3%Z.
Proof.
  cbv zeta.
  assert (Hr : (0 <= static_count
                      (mkProcess count_initial [loaded_plugin; loaded_plugin])
                  <= 100)%Z) by (cbn; unfold count_initial; lia).
  assert (Hv : Forall
                 (fun c : nat * UpdateInfo * Link =>
                    (fst (fst c)
                     < List.length
                         (instances
                            (mkProcess count_initial [loaded_plugin; loaded_plugin])))%nat)
                 [(0%nat, mkUpdateInfo 1, resting_link 1 level_MOI identity_rotation);
                  (1%nat, mkUpdateInfo 1, resting_link 1 level_MOI identity_rotation);
                  (0%nat, mkUpdateInfo 2, resting_link 1 level_MOI identity_rotation)])
    by (repeat constructor).
  split; [exact Hr | ].
  split; [exact Hv | ].
  exact (proj1 (Process_counts_all_calls _ _ Hr Hv)).
Defined.
